(** * autopilot: zero-downtime push and rollback for Cloud Foundry

    A shallow embedding of [autopilot.go].  The plugin talks to the platform
    through [plugin.CliConnection], prints to standard output and may leave
    the process through [os.Exit]; all three are explicit here: a program
    is a function from the process state to an outcome and a new process
    state, and every call made on the connection is appended to a log, so
    that what an operation "does" can be read off the commands it issued. *)

From Stdlib Require Import ZArith String Ascii List Floats.
From stdpp Require Import base gmap strings list.

Set Warnings "-register-all".
Set Default Proof Using "Type".

Local Open Scope string_scope.
Local Open Scope Z_scope.

(** ** Values of the Go runtime *)

(** What [encoding/json] stores in an [interface{}]: [nil], [bool],
    [float64], [string], [[]interface{}] and [map[string]interface{}]. *)
Definition float64 : Set := PrimFloat.float.

Inductive JSONValue : Type :=
| JNil
| JBool (b : bool)
| JNumber (f : float64)
| JString (s : string)
| JArray (l : list JSONValue)
| JObject (m : gmap string JSONValue).

(** The type assertion [totalResults.(float64)]. *)
Definition as_float64 (v : JSONValue) : float64 * bool :=
  match v with
  | JNumber f => (f, true)
  | _ => (0%float, false)
  end.

(** Go's [error] values, kept as the expressions that build them; the nil
    error is [None] of [option error]. *)
Inductive error : Type :=
| errors_New (text : string)
| fmt_Errorf (format : string) (operand : JSONValue)
| RewindFailure (cause : error) (message : string).

Definition dquote : string := String "034"%char EmptyString.

(** [strings.Join(elems, sep)] *)
Fixpoint strings_Join (elems : list string) (sep : string) : string :=
  match elems with
  | [] => ""
  | [e] => e
  | e :: rest => e +:+ sep +:+ strings_Join rest sep
  end.

(** ** The platform connection *)

Record Space : Type := { Guid : string; Name : string }.

(** The three methods of [plugin.CliConnection] the plugin calls, over a
    platform state [W]. *)
Record CliConnection (W : Type) : Type := {
  CliCommand : list string → W → (list string * option error) * W;
  CliCommandWithoutTerminalOutput :
    list string → W → (list string * option error) * W;
  GetCurrentSpace : W → (Space * option error) * W
}.
Arguments CliCommand {W} _ _ _.
Arguments CliCommandWithoutTerminalOutput {W} _ _ _.
Arguments GetCurrentSpace {W} _ _.

(** The two library calls whose results the plugin branches on. *)
Record FlagValues : Type := {
  flag_f : string;
  flag_p : string;
  flag_keep_existing_app : bool
}.

Record GoLibrary : Type := {
  (** [json.Unmarshal(data, &output)]: the map after the call, and the error *)
  json_Unmarshal :
    string → gmap string JSONValue → gmap string JSONValue * option error;
  (** [flags.Parse(arguments)] on the flag set of [ParseArgs]: the values
      of [-f], [-p] and [-keep-existing-app] after the call, and the error *)
  flags_Parse : list string → FlagValues * option error
}.

(** ** Process state, outcomes and the program monad *)

Inductive Call : Type :=
| CallCliCommand (args : list string)
| CallCliCommandWithoutTerminalOutput (args : list string)
| CallGetCurrentSpace.

(** A line written to standard output: [fmt.Println(s)], or
    [fmt.Fprintln(os.Stdout, "error:", err)]. *)
Inductive Line : Type :=
| Println (s : string)
| PrintlnError (err : error).

Record Proc (W : Type) : Type := mkProc {
  world : W;
  calls : list Call;
  stdout : list Line
}.
Arguments mkProc {W} _ _ _.
Arguments world {W} _.
Arguments calls {W} _.
Arguments stdout {W} _.

Inductive Outcome (A : Type) : Type :=
| Done (a : A)
| Exited (code : Z)
| Panicked.
Arguments Done {A} _.
Arguments Exited {A} _.
Arguments Panicked {A}.

Definition M (W A : Type) : Type := Proc W → Outcome A * Proc W.

#[global] Instance M_ret {W} : MRet (M W) := λ A a st, (Done a, st).

#[global] Instance M_bind {W} : MBind (M W) := λ A B k m st,
  match m st with
  | (Done a, st') => k a st'
  | (Exited c, st') => (Exited c, st')
  | (Panicked, st') => (Panicked, st')
  end.

Definition os_Exit {W A} (code : Z) : M W A := λ st, (Exited code, st).

Definition panic {W A} : M W A := λ st, (Panicked, st).

Definition print {W} (l : Line) : M W unit := λ st,
  (Done tt, mkProc (world st) (calls st) (stdout st ++ [l])).

Definition fmt_Println {W} (s : string) : M W unit := print (Println s).

(** [args[i]] and [args[i:]], which panic out of range. *)
Definition index {W} (args : list string) (i : nat) : M W string :=
  match args !! i with
  | Some a => mret a
  | None => panic
  end.

Definition slice_from {W} (args : list string) (i : nat) : M W (list string) :=
  if decide (i ≤ length args)%nat then mret (drop i args) else panic.

Definition fatalIf {W} (err : option error) : M W unit :=
  match err with
  | Some e => print (PrintlnError e);; os_Exit 1
  | None => mret tt
  end.

Definition venerableAppName (appName : string) : string :=
  appName +:+ "-venerable".

Definition rollbackAppName (appName : string) : string :=
  appName +:+ "-rollback".

Record AutopilotOptions : Type := { KeepExisting : bool }.

(** [rewind.Action]: [ReversePrevious] is a nil func when not given. *)
Record Action (W : Type) : Type := {
  Forward : M W (option error);
  ReversePrevious : option (M W (option error))
}.
Arguments Forward {W} _.
Arguments ReversePrevious {W} _.

Record Actions (W : Type) : Type := {
  ActionList : list (Action W);
  RewindFailureMessage : string
}.
Arguments ActionList {W} _.
Arguments RewindFailureMessage {W} _.

(** ** The plugin *)

Section Plugin.
Context {W : Type} (conn : CliConnection W) (go : GoLibrary).

Local Abbreviation Op := (M W (option error)).

(** Calls on the connection, each recorded in the call log. *)
Definition conn_CliCommand (args : list string)
  : M W (list string * option error) := λ st,
  let '(r, w) := CliCommand conn args (world st) in
  (Done r, mkProc w (calls st ++ [CallCliCommand args]) (stdout st)).

Definition conn_CliCommandWithoutTerminalOutput (args : list string)
  : M W (list string * option error) := λ st,
  let '(r, w) := CliCommandWithoutTerminalOutput conn args (world st) in
  (Done r,
   mkProc w (calls st ++ [CallCliCommandWithoutTerminalOutput args]) (stdout st)).

Definition conn_GetCurrentSpace : M W (Space * option error) := λ st,
  let '(r, w) := GetCurrentSpace conn (world st) in
  (Done r, mkProc w (calls st ++ [CallGetCurrentSpace]) (stdout st)).

(** *** ApplicationRepo *)

Definition RenameApplication (oldName newName : string) : Op :=
  '(_, err) ← conn_CliCommand ["rename"; oldName; newName];
  mret err.

Definition PushApplication (appName manifestPath appPath : string) : Op :=
  let args := ["push"; appName; "-f"; manifestPath] in
  let args := if decide (appPath ≠ "") then (args ++ ["-p"; appPath])%list else args in
  '(_, err) ← conn_CliCommand args;
  mret err.

Definition DeleteApplication (appName : string) : Op :=
  '(_, err) ← conn_CliCommand ["delete"; appName; "-f"];
  mret err.

Definition StartApplication (appName : string) : Op :=
  '(_, err) ← conn_CliCommand ["start"; appName];
  mret err.

Definition StopApplication (appName : string) : Op :=
  '(_, err) ← conn_CliCommand ["stop"; appName];
  mret err.

Definition ListApplications : Op :=
  '(_, err) ← conn_CliCommand ["apps"];
  mret err.

Definition DoesAppExist (appName : string) : M W (bool * option error) :=
  '(space, err) ← conn_GetCurrentSpace;
  match err with
  | Some e => mret (false, Some e)
  | None =>
    let path :=
      "v2/apps?q=name:" +:+ appName +:+ "&q=space_guid:" +:+ Guid space in
    '(result, err) ← conn_CliCommandWithoutTerminalOutput ["curl"; path];
    match err with
    | Some e => mret (false, Some e)
    | None =>
      let jsonResp := strings_Join result "" in
      let '(output, err) := json_Unmarshal go jsonResp ∅ in
      match err with
      | Some e => mret (false, Some e)
      | None =>
        match output !! "total_results" with
        | None =>
          mret (false, Some (errors_New "Missing total_results from api response"))
        | Some totalResults =>
          let '(count, ok) := as_float64 totalResults in
          if negb ok then
            mret (false,
                  Some (fmt_Errorf "total_results didn't have a number %v"
                                   totalResults))
          else mret (PrimFloat.eqb count 1%float, None)
        end
      end
    end
  end.

(** *** Argument parsing *)

Definition ErrNoManifest : error :=
  errors_New "a manifest is required to push this application".

Definition ParseArgs (args : list string)
  : M W (string * string * string * AutopilotOptions * option error) :=
  arguments ← slice_from args 2;
  let '(flags, err) := flags_Parse go arguments in
  match err with
  | Some e => mret ("", "", "", {| KeepExisting := false |}, Some e)
  | None =>
    appName ← index args 1;
    if decide (flag_f flags = "") then
      mret ("", "", "", {| KeepExisting := false |}, Some ErrNoManifest)
    else
      let options := {| KeepExisting := flag_keep_existing_app flags |} in
      mret (appName, flag_f flags, flag_p flags, options, None)
  end.

(** *** The planners *)

Definition getActionsForRollback (appName : string) (args : list string)
  : list (Action W) :=
  [ (* Rename live app *)
    {| Forward := RenameApplication appName (rollbackAppName appName);
       ReversePrevious :=
         Some (RenameApplication (rollbackAppName appName) appName) |};
    (* Rename venerable app *)
    {| Forward := RenameApplication (venerableAppName appName) appName;
       ReversePrevious :=
         Some (RenameApplication appName (venerableAppName appName)) |};
    (* Start rollback app *)
    {| Forward := StartApplication appName;
       ReversePrevious := None |};
    (* Delete rolled back app *)
    {| Forward := DeleteApplication (rollbackAppName appName);
       ReversePrevious := None |} ].

Definition getActionsForExistingApp
  (appName manifestPath appPath : string) (options : AutopilotOptions)
  : list (Action W) :=
  [ (* delete old version if it still exists *)
    {| Forward :=
         ('(appExists, err) ← DoesAppExist (venerableAppName appName);
          fatalIf err;;
          if (appExists : bool) then
            fmt_Println "Found old version of app running, deleting.";;
            DeleteApplication (venerableAppName appName)
          else mret None);
       ReversePrevious := None |};
    (* rename *)
    {| Forward := RenameApplication appName (venerableAppName appName);
       ReversePrevious := None |};
    (* push *)
    {| Forward := PushApplication appName manifestPath appPath;
       ReversePrevious := Some (
         (* If the app cannot start we'll have a lingering application
            We delete this application so that the rename can succeed *)
         DeleteApplication appName;;
         RenameApplication (venerableAppName appName) appName) |};
    (* delete/stop *)
    {| Forward :=
         (if KeepExisting options then
            fmt_Println "Stopping old version of app. Remove the --keep-existing-app flag to delete it automatically.";;
            StopApplication (venerableAppName appName)
          else
            fmt_Println "Deleting old version of app. Use the --keep-existing-app flag to preserve it.";;
            DeleteApplication (venerableAppName appName));
       ReversePrevious := None |} ].

Definition getActionsForNewApp (appName manifestPath appPath : string)
  : list (Action W) :=
  [ (* push *)
    {| Forward := PushApplication appName manifestPath appPath;
       ReversePrevious := None |} ].

Definition getActionsForPush (args : list string) : M W (list (Action W)) :=
  '(appName, manifestPath, appPath, options, err) ← ParseArgs args;
  fatalIf err;;
  '(appExists, err) ← DoesAppExist appName;
  fatalIf err;;
  if (appExists : bool) then
    mret (getActionsForExistingApp appName manifestPath appPath options)
  else
    mret (getActionsForNewApp appName manifestPath appPath).

(** *** The sequencer *)

(** Modelled from the spec: [rewind.Actions.Execute], of package
    [github.com/concourse/autopilot/rewind], which [autopilot.go] imports
    and whose source is not part of the tree.  Section 4.1: the actions run
    forward in order; on the first forward failure the completed actions
    are walked in reverse order, from the one just before the failed index
    down to index 0, each [ReversePrevious] that is set is run and its
    error collected; the result is the forward error alone when no reverse
    operation failed, and an error combining it with the configured message
    otherwise. *)
Fixpoint unwind (completed : list (Action W)) : M W (list error) :=
  match completed with
  | [] => mret []
  | a :: earlier =>
    match ReversePrevious a with
    | None => unwind earlier
    | Some reverse =>
      err ← reverse;
      errs ← unwind earlier;
      mret (match err with Some e => e :: errs | None => errs end)
    end
  end.

Fixpoint execute_from (message : string)
  (completed todo : list (Action W)) : Op :=
  match todo with
  | [] => mret None
  | a :: later =>
    err ← Forward a;
    match err with
    | None => execute_from message (a :: completed) later
    | Some e =>
      errs ← unwind completed;
      match errs with
      | [] => mret (Some e)
      | _ :: _ => mret (Some (RewindFailure e message))
      end
    end
  end.

Definition Execute (actions : Actions W) : Op :=
  execute_from (RewindFailureMessage actions) [] (ActionList actions).

(** *** The driver *)

Definition pushSuccessMessage : string :=
  "A new version of your application has successfully been pushed!".

Definition rollbackSuccessMessage : string :=
  "Your application has been successfully rolled back!".

Definition liveNotFound (appName : string) : error :=
  errors_New ("Live version of app " +:+ dquote +:+ appName +:+ dquote
              +:+ " not found, cannot rollback.").

Definition venerableNotFound (appName : string) : error :=
  errors_New ("Venerable version of " +:+ dquote +:+ appName +:+ dquote
              +:+ " not found, cannot rollback. Make sure you push with the "
              +:+ "--keep-existing-app flag to leave the venerable version behind.").

Definition rewindFailureMessage : string :=
  "Oh no. Something's gone wrong. I've tried to roll back but you should check to see if everything is OK.".

(** The tail of [Run], from [actions := rewind.Actions{...}] on. *)
Definition finish (actionList : list (Action W)) (successMessage : string)
  : M W unit :=
  let actions := {| ActionList := actionList;
                    RewindFailureMessage := rewindFailureMessage |} in
  err ← Execute actions;
  fatalIf err;;
  fmt_Println "";;
  fmt_Println successMessage;;
  fmt_Println "";;
  err ← ListApplications;
  fatalIf err.

Definition Run (args : list string) : M W unit :=
  appName ← index args 1;
  command ← index args 0;
  if decide (command = "zero-downtime-push") then
    actionList ← getActionsForPush args;
    finish actionList pushSuccessMessage
  else if decide (command = "zero-downtime-rollback") then
    '(appExists, err) ← DoesAppExist appName;
    fatalIf err;;
    '(venerableAppExists, err) ← DoesAppExist (venerableAppName appName);
    fatalIf err;;
    (if negb appExists then fatalIf (Some (liveNotFound appName))
     else mret tt);;
    (if negb venerableAppExists then
       fatalIf (Some (venerableNotFound appName))
     else mret tt);;
    finish (getActionsForRollback appName args) rollbackSuccessMessage
  else
    finish [] "".

End Plugin.

(** ** Reading the call log *)

(** The calls [DoesAppExist] makes: the current space and the [curl] of the
    apps endpoint.  Every other operation of the repo is a [CliCommand]. *)
Definition is_existence_query (c : Call) : bool :=
  match c with
  | CallCliCommand _ => false
  | CallCliCommandWithoutTerminalOutput _ => true
  | CallGetCurrentSpace => true
  end.

(** The application a command names: [cf VERB APP ...]. *)
Definition app_operand (c : Call) : option string :=
  match c with
  | CallCliCommand (_ :: app :: _) => Some app
  | _ => None
  end.

(** The calls made between two process states. *)
Definition calls_since {W} (st st' : Proc W) : list Call :=
  drop (length (calls st)) (calls st').

(** An operation that never queries existence, whatever the state it is
    run in. *)
Definition query_free {W A} (op : M W A) : Prop :=
  ∀ st, Forall (λ c, is_existence_query c = false) (calls_since st (op st).2).

(** An Action neither of whose operations queries existence. *)
Definition action_query_free {W} (a : Action W) : Prop :=
  query_free (Forward a)
  ∧ match ReversePrevious a with
    | Some reverse => query_free reverse
    | None => True
    end.

Section Effects.
Context {W : Type} (conn : CliConnection W).

(** The process after [cf args...] was issued through [CliCommand] and the
    error it returned. *)
Definition after_command (args : list string) (st : Proc W)
  : Outcome (option error) * Proc W :=
  let '((_, err), w) := CliCommand conn args (world st) in
  (Done err, mkProc w (calls st ++ [CallCliCommand args]) (stdout st)).

(** The process after a line was printed. *)
Definition printed (l : Line) (st : Proc W) : Proc W :=
  mkProc (world st) (calls st) (stdout st ++ [l]).

End Effects.

(** ** A small platform to run the plugin on

    A space holding applications by name, in which chosen verbs can be made
    to fail; [curl] of the apps endpoint answers with the number of
    applications of the queried name. *)
Module Sim.

Record World : Type := {
  apps : list string;
  failing : list string
}.

Definition space : Space := {| Guid := "guid-1"; Name := "dev" |}.

Definition total_json (n : string) : string :=
  "{" +:+ dquote +:+ "total_results" +:+ dquote +:+ ":" +:+ n +:+ "}".

Definition count_text (n : nat) : string :=
  match n with
  | 0%nat => "0"
  | 1%nat => "1"
  | 2%nat => "2"
  | _ => "3"
  end.

(** The name queried by [v2/apps?q=name:NAME&q=space_guid:GUID]. *)
Definition queried_name (path : string) : string :=
  let rest := String.substring 15 (String.length path - 15) path in
  match String.index 0 "&q=space_guid:" rest with
  | Some n => String.substring 0 n rest
  | None => rest
  end.

Definition occurrences (name : string) (l : list string) : nat :=
  length (filter (λ a, a = name) l).

Definition rename_in (old new : string) (l : list string) : list string :=
  (λ a, if decide (a = old) then new else a) <$> l.

Definition fails (verb : string) (w : World) : bool :=
  bool_decide (verb ∈ failing w).

Definition failure (verb : string) : error :=
  errors_New ("FAILED " +:+ verb).

Definition with_apps (l : list string) (w : World) : World :=
  {| apps := l; failing := failing w |}.

Definition command (args : list string) (w : World)
  : (list string * option error) * World :=
  match args with
  | [] => (([], Some (errors_New "no command")), w)
  | verb :: operands =>
    if fails verb w then (([], Some (failure verb)), w)
    else
      match verb, operands with
      | "rename", [old; new] =>
        if bool_decide (new ∈ apps w)
        then (([], Some (errors_New ("The app name is taken: " +:+ new))), w)
        else if bool_decide (old ∈ apps w)
        then ((["OK"], None), with_apps (rename_in old new (apps w)) w)
        else (([], Some (errors_New ("App " +:+ old +:+ " not found"))), w)
      | "delete", name :: _ =>
        ((["OK"], None), with_apps (filter (λ a, a ≠ name) (apps w)) w)
      | "push", name :: _ =>
        if bool_decide (name ∈ apps w) then ((["OK"], None), w)
        else ((["OK"], None), with_apps (apps w ++ [name])%list w)
      | "start", [name] | "stop", [name] =>
        if bool_decide (name ∈ apps w) then ((["OK"], None), w)
        else (([], Some (errors_New ("App " +:+ name +:+ " not found"))), w)
      | "apps", [] => ((apps w, None), w)
      | _, _ => (([], Some (errors_New "unknown command")), w)
      end
  end.

Definition curl (args : list string) (w : World)
  : (list string * option error) * World :=
  match args with
  | ["curl"; path] =>
    if fails "curl" w then (([], Some (failure "curl")), w)
    else (([total_json (count_text (occurrences (queried_name path) (apps w)))],
           None), w)
  | _ => (([], Some (errors_New "unknown command")), w)
  end.

Definition conn : CliConnection World := {|
  CliCommand := command;
  CliCommandWithoutTerminalOutput := curl;
  GetCurrentSpace := λ w, ((space, None), w)
|}.

(** Decodes the answers of [curl] above, and nothing else. *)
Definition unmarshal (data : string) (output : gmap string JSONValue)
  : gmap string JSONValue * option error :=
  if decide (data = total_json "0") then
    (<["total_results" := JNumber 0%float]> output, None)
  else if decide (data = total_json "1") then
    (<["total_results" := JNumber 1%float]> output, None)
  else if decide (data = total_json "2") then
    (<["total_results" := JNumber 2%float]> output, None)
  else if decide (data = total_json "3") then
    (<["total_results" := JNumber 3%float]> output, None)
  else if decide (data = "{}") then (output, None)
  else (output, Some (errors_New "invalid character")).

Definition set_flag (name value : string) (v : FlagValues) : FlagValues :=
  if decide (name = "f") then
    {| flag_f := value; flag_p := flag_p v;
       flag_keep_existing_app := flag_keep_existing_app v |}
  else
    {| flag_f := flag_f v; flag_p := value;
       flag_keep_existing_app := flag_keep_existing_app v |}.

(** The flags of [ParseArgs] in the forms [-name value] and [-name] (one
    or two dashes), stopping at the first argument that is not a flag. *)
Fixpoint parse_flags (args : list string) (v : FlagValues)
  : FlagValues * option error :=
  match args with
  | [] => (v, None)
  | s :: rest =>
    let name :=
      if String.prefix "--" s then String.substring 2 (String.length s - 2) s
      else String.substring 1 (String.length s - 1) s in
    if negb (String.prefix "-" s) || bool_decide (name = "") then (v, None)
    else if bool_decide (name = "keep-existing-app") then
      parse_flags rest
        {| flag_f := flag_f v; flag_p := flag_p v;
           flag_keep_existing_app := true |}
    else if bool_decide (name = "f") || bool_decide (name = "p") then
      match rest with
      | value :: rest' => parse_flags rest' (set_flag name value v)
      | [] =>
        (v, Some (errors_New ("flag needs an argument: -" +:+ name)))
      end
    else (v, Some (errors_New ("flag provided but not defined: -" +:+ name)))
  end.

Definition go : GoLibrary := {|
  json_Unmarshal := unmarshal;
  flags_Parse := λ arguments,
    parse_flags arguments
      {| flag_f := ""; flag_p := ""; flag_keep_existing_app := false |}
|}.

Definition start (l : list string) : Proc World :=
  mkProc {| apps := l; failing := [] |} [] [].

Definition start_failing (l verbs : list string) : Proc World :=
  mkProc {| apps := l; failing := verbs |} [] [].

(** The process after one existence check of [name], which leaves the
    space as it was. *)
Definition queried (name : string) (st : Proc World) : Proc World :=
  mkProc (world st)
    (calls st ++
     [CallGetCurrentSpace;
      CallCliCommandWithoutTerminalOutput
        ["curl"; "v2/apps?q=name:" +:+ name +:+ "&q=space_guid:guid-1"]])
    (stdout st).

Definition push_args : list string :=
  ["zero-downtime-push"; "foo"; "-f"; "manifest.yml"].

Definition rollback_args : list string := ["zero-downtime-rollback"; "foo"].

Definition delete_options : AutopilotOptions := {| KeepExisting := false |}.

End Sim.

(** The same platform with no space targeted: asking for the current
    space fails. *)
Module Untargeted.

Definition no_space : error := errors_New "No space targeted".

Definition conn : CliConnection Sim.World := {|
  CliCommand := Sim.command;
  CliCommandWithoutTerminalOutput := Sim.curl;
  GetCurrentSpace := λ w, (({| Guid := ""; Name := "" |}, Some no_space), w)
|}.

End Untargeted.

(** ** Running programs *)

(** Steps through binds whose left-hand sides only print, return or exit. *)
Ltac run_prints :=
  cbv beta iota zeta delta
    [mbind M_bind mret M_ret fatalIf fmt_Println print os_Exit printed fst snd];
  cbn [calls world stdout].

Section Running.
Context {W : Type} (conn : CliConnection W) (go : GoLibrary).

Implicit Types (st : Proc W) (args : list string).

Lemma bind_done {A B} (m : M W A) (k : A → M W B) st a st' :
  m st = (Done a, st') → (m ≫= k) st = k a st'.
Proof. intros E. unfold mbind, M_bind. by rewrite E. Qed.

Lemma bind_exited {A B} (m : M W A) (k : A → M W B) st c st' :
  m st = (Exited c, st') → (m ≫= k) st = (Exited c, st').
Proof. intros E. unfold mbind, M_bind. by rewrite E. Qed.

Lemma mret_run {A} (a : A) st : (mret a : M W A) st = (Done a, st).
Proof. reflexivity. Qed.

Lemma fatalIf_nil st : fatalIf None st = (Done tt, st).
Proof. reflexivity. Qed.

Lemma fatalIf_error e st :
  fatalIf (Some e) st = (Exited 1, printed (PrintlnError e) st).
Proof. reflexivity. Qed.

(** Issuing one command and returning its error, as every method of the
    repo but [DoesAppExist] does. *)
Lemma command_run args st :
  ('(_, err) ← conn_CliCommand conn args; mret err) st
  = after_command conn args st.
Proof.
  unfold mbind, M_bind, conn_CliCommand, after_command.
  by destruct (CliCommand conn args (world st)) as [[out err] w].
Qed.

Lemma RenameApplication_run oldName newName st :
  RenameApplication conn oldName newName st
  = after_command conn ["rename"; oldName; newName] st.
Proof. apply command_run. Qed.

Lemma DeleteApplication_run appName st :
  DeleteApplication conn appName st
  = after_command conn ["delete"; appName; "-f"] st.
Proof. apply command_run. Qed.

Lemma StartApplication_run appName st :
  StartApplication conn appName st = after_command conn ["start"; appName] st.
Proof. apply command_run. Qed.

Lemma StopApplication_run appName st :
  StopApplication conn appName st = after_command conn ["stop"; appName] st.
Proof. apply command_run. Qed.

Lemma ListApplications_run st :
  ListApplications conn st = after_command conn ["apps"] st.
Proof. apply command_run. Qed.

Lemma PushApplication_run appName manifestPath appPath st :
  PushApplication conn appName manifestPath appPath st
  = after_command conn
      (["push"; appName; "-f"; manifestPath]
       ++ (if decide (appPath = "") then [] else ["-p"; appPath]))%list st.
Proof.
  unfold PushApplication.
  destruct (decide (appPath ≠ "")), (decide (appPath = ""));
    try contradiction; apply command_run.
Qed.

Lemma after_command_done args st :
  ∃ err st', after_command conn args st = (Done err, st')
    ∧ calls st' = (calls st ++ [CallCliCommand args])%list
    ∧ stdout st' = stdout st.
Proof.
  unfold after_command.
  destruct (CliCommand conn args (world st)) as [[out err] w]. eauto.
Qed.

Lemma calls_since_after_command args st :
  calls_since st (after_command conn args st).2 = [CallCliCommand args].
Proof.
  destruct (after_command_done args st) as (err & st' & -> & Hc & _).
  unfold calls_since. simpl. rewrite Hc. apply drop_app_length.
Qed.

Lemma calls_since_refl st : calls_since st st = [].
Proof. unfold calls_since. apply drop_all. Qed.

Lemma calls_since_printed l st st' :
  calls_since st (printed l st') = calls_since st st'.
Proof. reflexivity. Qed.

(** [DoesAppExist] always returns, to its caller; it prints nothing and
    the calls it makes are existence queries, the first of them for the
    current space. *)
Lemma DoesAppExist_done appName st :
  ∃ r st' later,
    DoesAppExist conn go appName st = (Done r, st')
    ∧ calls st' = (calls st ++ CallGetCurrentSpace :: later)%list
    ∧ Forall (λ c, is_existence_query c = true) later
    ∧ stdout st' = stdout st.
Proof.
  unfold DoesAppExist, mbind, M_bind, conn_GetCurrentSpace,
    conn_CliCommandWithoutTerminalOutput.
  destruct (GetCurrentSpace conn (world st)) as [[sp [e|]] w1]; simpl.
  { eexists _, _, []. eauto. }
  destruct (CliCommandWithoutTerminalOutput conn _ w1)
    as [[result [e|]] w2]; simpl.
  { eexists _, _, [_]. split; [done|]. simpl. rewrite <- app_assoc.
    repeat split; auto. }
  assert (∀ r, ∃ r' st' later,
    (mret r : M W (bool * option error))
      (mkProc w2
         ((calls st ++ [CallGetCurrentSpace])
          ++ [CallCliCommandWithoutTerminalOutput
                ["curl"; "v2/apps?q=name:" +:+ appName +:+ "&q=space_guid:"
                         +:+ Guid sp]])%list (stdout st))
    = (Done r', st')
    ∧ calls st' = (calls st ++ CallGetCurrentSpace :: later)%list
    ∧ Forall (λ c, is_existence_query c = true) later
    ∧ stdout st' = stdout st) as Hret.
  { intros r. eexists r, _, [_]. split; [done|]. simpl.
    rewrite <- app_assoc. repeat split; auto. }
  destruct (json_Unmarshal go _ ∅) as [output [e|]]; [apply Hret|].
  destruct (output !! "total_results") as [v|]; [|apply Hret].
  destruct (as_float64 v) as [count []]; apply Hret.
Qed.

(** With the current space known, the second call is the [curl] that
    names the application. *)
Lemma DoesAppExist_asks appName st space w1 :
  GetCurrentSpace conn (world st) = ((space, None), w1) →
  ∃ r st',
    DoesAppExist conn go appName st = (Done r, st')
    ∧ calls st'
      = (calls st ++
         [CallGetCurrentSpace;
          CallCliCommandWithoutTerminalOutput
            ["curl"; "v2/apps?q=name:" +:+ appName +:+ "&q=space_guid:"
                     +:+ Guid space]])%list.
Proof.
  intros Hspace.
  unfold DoesAppExist, mbind, M_bind, conn_GetCurrentSpace,
    conn_CliCommandWithoutTerminalOutput.
  rewrite Hspace. cbn beta iota zeta. cbn [world calls stdout].
  destruct (CliCommandWithoutTerminalOutput conn _ w1)
    as [[result [e|]] w2]; cbn beta iota zeta.
  { do 2 eexists. split; [reflexivity|]. cbn [calls].
    by rewrite <- app_assoc. }
  destruct (json_Unmarshal go _ ∅) as [output [e|]].
  { do 2 eexists. split; [reflexivity|]. cbn [calls].
    by rewrite <- app_assoc. }
  destruct (output !! "total_results") as [v|].
  - destruct (as_float64 v) as [count []]; cbn [negb];
      (do 2 eexists; split; [reflexivity|]; cbn [calls];
       by rewrite <- app_assoc).
  - do 2 eexists. split; [reflexivity|]. cbn [calls].
    by rewrite <- app_assoc.
Qed.

End Running.

(** ** The plans *)

Section Plans.
Context {W : Type} (conn : CliConnection W) (go : GoLibrary).

Implicit Types (st : Proc W) (args : list string).
Implicit Types (appName manifestPath appPath : string).

(** C3.  The rollback plan has exactly four Actions, in this order:
    rename A to A-rollback, undone by renaming A-rollback to A; rename
    A-venerable to A, undone by renaming A to A-venerable; start A, with no
    reverse operation; delete A-rollback, with no reverse operation.  Each
    operation issues the one command given and returns its error. *)
Theorem rollback_plan appName args :
  ∃ stash restore start discard undo_stash undo_restore,
    getActionsForRollback conn appName args = [stash; restore; start; discard]
    ∧ (∀ st, Forward stash st
         = after_command conn ["rename"; appName; appName +:+ "-rollback"] st)
    ∧ ReversePrevious stash = Some undo_stash
    ∧ (∀ st, undo_stash st
         = after_command conn ["rename"; appName +:+ "-rollback"; appName] st)
    ∧ (∀ st, Forward restore st
         = after_command conn ["rename"; appName +:+ "-venerable"; appName] st)
    ∧ ReversePrevious restore = Some undo_restore
    ∧ (∀ st, undo_restore st
         = after_command conn ["rename"; appName; appName +:+ "-venerable"] st)
    ∧ (∀ st, Forward start st = after_command conn ["start"; appName] st)
    ∧ ReversePrevious start = None
    ∧ (∀ st, Forward discard st
         = after_command conn ["delete"; appName +:+ "-rollback"; "-f"] st)
    ∧ ReversePrevious discard = None.
Proof.
  unfold getActionsForRollback. do 6 eexists.
  split; [reflexivity|]. simpl.
  repeat split; intros;
    first [ apply RenameApplication_run | apply StartApplication_run
          | apply DeleteApplication_run ].
Qed.

(** The reverse operation of the push step, run in any state: the forced
    delete of A, whose outcome is dropped, then the rename. *)
Lemma push_reverse_run appName st :
  (DeleteApplication conn appName;;
   RenameApplication conn (venerableAppName appName) appName) st
  = after_command conn ["rename"; appName +:+ "-venerable"; appName]
      (after_command conn ["delete"; appName; "-f"] st).2.
Proof.
  unfold mbind at 1, M_bind. rewrite DeleteApplication_run.
  destruct (after_command_done conn ["delete"; appName; "-f"] st)
    as (err & st' & -> & _). simpl.
  apply RenameApplication_run.
Qed.

(** C2.  In the replace-existing plan the third Action pushes A, and its
    reverse operation issues the forced delete of A (which removes A when
    it exists) and then renames A-venerable back to A: these two commands,
    in this order, and nothing else. *)
Theorem push_reverse_deletes_then_renames_back
  appName manifestPath appPath options :
  ∃ clean demote push retire reverse,
    getActionsForExistingApp conn go appName manifestPath appPath options
      = [clean; demote; push; retire]
    ∧ (∀ st, Forward push st
         = after_command conn
             (["push"; appName; "-f"; manifestPath]
              ++ (if decide (appPath = "") then [] else ["-p"; appPath]))%list
             st)
    ∧ ReversePrevious push = Some reverse
    ∧ (∀ st, reverse st
         = after_command conn ["rename"; appName +:+ "-venerable"; appName]
             (after_command conn ["delete"; appName; "-f"] st).2)
    ∧ (∀ st, calls_since st (reverse st).2
         = [CallCliCommand ["delete"; appName; "-f"];
            CallCliCommand ["rename"; appName +:+ "-venerable"; appName]]).
Proof.
  unfold getActionsForExistingApp. do 5 eexists.
  split; [reflexivity|]. simpl.
  split; [intros; apply PushApplication_run|].
  split; [reflexivity|].
  split; [intros; apply push_reverse_run|].
  intros st. rewrite push_reverse_run.
  destruct (after_command_done conn ["delete"; appName; "-f"] st)
    as (e1 & st1 & -> & Hc1 & _). simpl.
  destruct (after_command_done conn
              ["rename"; appName +:+ "-venerable"; appName] st1)
    as (e2 & st2 & -> & Hc2 & _). simpl.
  unfold calls_since. rewrite Hc2, Hc1, <- app_assoc. apply drop_app_length.
Qed.

(** C9.  When the delete of the half-pushed A fails, the reverse operation
    of the push step still issues the rename of A-venerable to A, on the
    platform as the failed delete left it, and what it returns is the
    error of the rename alone. *)
Theorem push_reverse_ignores_delete_error
  appName manifestPath appPath options st out e w1 :
  CliCommand conn ["delete"; appName; "-f"] (world st) = ((out, Some e), w1) →
  ∃ clean demote push retire reverse,
    getActionsForExistingApp conn go appName manifestPath appPath options
      = [clean; demote; push; retire]
    ∧ ReversePrevious push = Some reverse
    ∧ reverse st
      = after_command conn ["rename"; appName +:+ "-venerable"; appName]
          (mkProc w1 (calls st ++ [CallCliCommand ["delete"; appName; "-f"]])
                  (stdout st))
    ∧ (∀ out2 err2 w2,
         CliCommand conn ["rename"; appName +:+ "-venerable"; appName] w1
           = ((out2, err2), w2) →
         (reverse st).1 = Done err2).
Proof.
  intros Hdel. unfold getActionsForExistingApp. do 5 eexists.
  split; [reflexivity|]. simpl. split; [reflexivity|].
  rewrite push_reverse_run. unfold after_command at 2. rewrite Hdel. simpl.
  split; [reflexivity|].
  intros out2 err2 w2 Hren. unfold after_command. rewrite Hdel. simpl.
  by rewrite Hren.
Qed.

(** C5.  The last Action of the replace-existing plan has no reverse
    operation; its forward operation prints a notice and then stops
    A-venerable when [KeepExisting] is set, and deletes A-venerable when it
    is not. *)
Theorem retire_stops_or_deletes appName manifestPath appPath options :
  ∃ clean demote push retire,
    getActionsForExistingApp conn go appName manifestPath appPath options
      = [clean; demote; push; retire]
    ∧ ReversePrevious retire = None
    ∧ (∀ st, Forward retire st
         = if KeepExisting options then
             after_command conn ["stop"; appName +:+ "-venerable"]
               (printed (Println "Stopping old version of app. Remove the --keep-existing-app flag to delete it automatically.") st)
           else
             after_command conn ["delete"; appName +:+ "-venerable"; "-f"]
               (printed (Println "Deleting old version of app. Use the --keep-existing-app flag to preserve it.") st)).
Proof.
  unfold getActionsForExistingApp. do 4 eexists.
  split; [reflexivity|]. simpl. split; [reflexivity|].
  intros st. destruct (KeepExisting options).
  - apply StopApplication_run.
  - apply DeleteApplication_run.
Qed.

(** [ParseArgs] touches neither the platform nor the output. *)
Lemma ParseArgs_pure args st :
  ∃ o, ParseArgs (W:=W) go args st = (o, st).
Proof.
  unfold ParseArgs, slice_from, index, mbind, M_bind.
  destruct (decide (2 ≤ length args)%nat); simpl; [|eauto].
  destruct (flags_Parse go (drop 2 args)) as [flags [e|]]; simpl; [eauto|].
  destruct (args !! 1%nat); simpl; [|eauto].
  destruct (decide (flag_f flags = "")); eauto.
Qed.

Lemma venerable_differs appName : appName ≠ venerableAppName appName.
Proof.
  unfold venerableAppName. induction appName as [|c s IH]; simpl.
  - discriminate.
  - intros [= E]. by apply IH.
Qed.

Lemma rollback_differs appName : appName ≠ rollbackAppName appName.
Proof.
  unfold rollbackAppName. induction appName as [|c s IH]; simpl.
  - discriminate.
  - intros [= E]. by apply IH.
Qed.

(** C1.  When the arguments parse and the application exists, the planner
    returns the replace-existing plan, of exactly four Actions.  The
    forward operation of the first deletes A-venerable when the existence
    check finds it and does nothing more when the check does not; the
    forward operation of the second, which comes after it in the plan,
    renames A to A-venerable. *)
Theorem replace_existing_plan
  args st st1 st2 appName manifestPath appPath options :
  ParseArgs go args st
    = (Done (appName, manifestPath, appPath, options, None), st1) →
  DoesAppExist conn go appName st1 = (Done (true, None), st2) →
  ∃ clean demote push retire,
    getActionsForPush conn go args st
      = (Done [clean; demote; push; retire], st2)
    ∧ getActionsForExistingApp conn go appName manifestPath appPath options
      = [clean; demote; push; retire]
    ∧ (∀ s s',
         DoesAppExist conn go (appName +:+ "-venerable") s
           = (Done (true, None), s') →
         Forward clean s
         = after_command conn ["delete"; appName +:+ "-venerable"; "-f"]
             (printed (Println "Found old version of app running, deleting.")
                      s'))
    ∧ (∀ s s',
         DoesAppExist conn go (appName +:+ "-venerable") s
           = (Done (false, None), s') →
         Forward clean s = (Done None, s'))
    ∧ (∀ s, Forward demote s
         = after_command conn ["rename"; appName; appName +:+ "-venerable"] s).
Proof.
  intros Hparse Hexists. do 4 eexists.
  split.
  { unfold getActionsForPush, mbind, M_bind. rewrite Hparse. simpl.
    rewrite Hexists. simpl. reflexivity. }
  split; [reflexivity|]. simpl. unfold venerableAppName.
  split; [|split].
  - intros s s' Hven. unfold mbind, M_bind. rewrite Hven. simpl.
    apply DeleteApplication_run.
  - intros s s' Hven. unfold mbind, M_bind. by rewrite Hven.
  - intros s. apply RenameApplication_run.
Qed.

(** C6.  When the arguments parse and the application does not exist, the
    planner returns exactly one Action, with no reverse operation, whose
    forward operation pushes the application; the one command it issues
    names the application itself, which is neither its venerable nor its
    rollback name. *)
Theorem new_app_plan
  args st st1 st2 appName manifestPath appPath options :
  ParseArgs go args st
    = (Done (appName, manifestPath, appPath, options, None), st1) →
  DoesAppExist conn go appName st1 = (Done (false, None), st2) →
  ∃ push,
    getActionsForPush conn go args st = (Done [push], st2)
    ∧ ReversePrevious push = None
    ∧ (∀ s, Forward push s
         = after_command conn
             (["push"; appName; "-f"; manifestPath]
              ++ (if decide (appPath = "") then [] else ["-p"; appPath]))%list
             s)
    ∧ (∀ s c, c ∈ calls_since s (Forward push s).2 →
         app_operand c = Some appName
         ∧ app_operand c ≠ Some (appName +:+ "-venerable")
         ∧ app_operand c ≠ Some (appName +:+ "-rollback")).
Proof.
  intros Hparse Hexists. eexists.
  split.
  { unfold getActionsForPush, mbind, M_bind. rewrite Hparse. simpl.
    rewrite Hexists. simpl. reflexivity. }
  simpl. split; [reflexivity|].
  split; [intros; apply PushApplication_run|].
  intros s c. rewrite PushApplication_run, calls_since_after_command.
  intros ->%list_elem_of_singleton. simpl.
  split; [reflexivity|].
  split; intros [= E].
  - by apply (venerable_differs appName).
  - by apply (rollback_differs appName).
Qed.

(** Operations that issue commands only. *)
Lemma query_free_command (op : M W (option error)) cmd :
  (∀ st, op st = after_command conn cmd st) → query_free op.
Proof.
  intros Hop st. rewrite Hop, calls_since_after_command.
  by repeat constructor.
Qed.

Lemma calls_since_push_reverse appName st :
  calls_since st
    ((DeleteApplication conn appName;;
      RenameApplication conn (venerableAppName appName) appName) st).2
  = [CallCliCommand ["delete"; appName; "-f"];
     CallCliCommand ["rename"; appName +:+ "-venerable"; appName]].
Proof.
  rewrite push_reverse_run.
  destruct (after_command_done conn ["delete"; appName; "-f"] st)
    as (e1 & st1 & -> & Hc1 & _). simpl.
  destruct (after_command_done conn
              ["rename"; appName +:+ "-venerable"; appName] st1)
    as (e2 & st2 & -> & Hc2 & _). simpl.
  unfold calls_since. rewrite Hc2, Hc1, <- app_assoc. apply drop_app_length.
Qed.

Lemma query_free_printed_command l cmd :
  query_free (λ st, after_command conn cmd (printed l st)).
Proof.
  intros st.
  change (calls_since st (after_command conn cmd (printed l st)).2)
    with (calls_since (printed l st) (after_command conn cmd (printed l st)).2).
  rewrite calls_since_after_command. by repeat constructor.
Qed.

(** C7, as the code has it.  No operation of the rollback plan or of the
    new-app plan queries existence, and in the replace-existing plan no
    operation but one does: the forward operation of the first Action,
    which has no reverse operation, asks the platform for A-venerable every
    time it is run, starting with the current space. *)
Theorem queries_while_executing appName manifestPath appPath options args :
  Forall action_query_free (getActionsForRollback conn appName args)
  ∧ Forall action_query_free
      (getActionsForNewApp conn appName manifestPath appPath)
  ∧ ∃ clean later,
      getActionsForExistingApp conn go appName manifestPath appPath options
        = clean :: later
      ∧ Forall action_query_free later
      ∧ ReversePrevious clean = None
      ∧ (∀ st, ∃ l,
           calls_since st (Forward clean st).2 = CallGetCurrentSpace :: l)
      ∧ (∀ st space w1,
           GetCurrentSpace conn (world st) = ((space, None), w1) →
           ∃ l, calls_since st (Forward clean st).2
                = CallGetCurrentSpace
                  :: CallCliCommandWithoutTerminalOutput
                       ["curl"; "v2/apps?q=name:" +:+ (appName +:+ "-venerable")
                                +:+ "&q=space_guid:" +:+ Guid space]
                  :: l).
Proof.
  split; [|split].
  - unfold getActionsForRollback.
    repeat constructor; simpl;
      eapply query_free_command; intros;
      first [ apply RenameApplication_run | apply StartApplication_run
            | apply DeleteApplication_run ].
  - unfold getActionsForNewApp.
    repeat constructor; simpl.
    eapply query_free_command; intros; apply PushApplication_run.
  - unfold getActionsForExistingApp. do 2 eexists.
    split; [reflexivity|]. split; [|split; [reflexivity|split]].
    + repeat constructor; simpl.
      * eapply query_free_command; intros; apply RenameApplication_run.
      * eapply query_free_command; intros; apply PushApplication_run.
      * intros st. rewrite calls_since_push_reverse. by repeat constructor.
      * destruct (KeepExisting options).
        -- intros st.
           change ((fmt_Println _;; StopApplication conn _) st)
             with (StopApplication conn (venerableAppName appName)
                     (printed (Println "Stopping old version of app. Remove the --keep-existing-app flag to delete it automatically.") st)).
           rewrite StopApplication_run.
           apply (query_free_printed_command _ _ st).
        -- intros st.
           change ((fmt_Println _;; DeleteApplication conn _) st)
             with (DeleteApplication conn (venerableAppName appName)
                     (printed (Println "Deleting old version of app. Use the --keep-existing-app flag to preserve it.") st)).
           rewrite DeleteApplication_run.
           apply (query_free_printed_command _ _ st).
    + intros st. cbn [Forward].
      destruct (DoesAppExist_done conn go (venerableAppName appName) st)
        as ([exists_ err] & st' & l & Hrun & Hcalls & _).
      unfold mbind at 1, M_bind at 1. rewrite Hrun.
      destruct err as [e|].
      { exists l. unfold calls_since. run_prints. rewrite Hcalls.
        apply drop_app_length. }
      destruct exists_.
      * change ((fatalIf None;; _) st')
          with (DeleteApplication conn (venerableAppName appName)
                  (printed (Println "Found old version of app running, deleting.") st')).
        rewrite DeleteApplication_run.
        destruct (after_command_done conn
                    ["delete"; venerableAppName appName; "-f"]
                    (printed (Println "Found old version of app running, deleting.") st'))
          as (e & st'' & -> & Hc & _).
        exists (l ++ [CallCliCommand ["delete"; venerableAppName appName; "-f"]])%list.
        unfold calls_since. cbn [snd]. rewrite Hc. cbn [printed calls].
        rewrite Hcalls, <- app_assoc. apply drop_app_length.
      * exists l. unfold calls_since. run_prints. rewrite Hcalls.
        apply drop_app_length.
    + intros st space w1 Hspace. cbn [Forward].
      destruct (DoesAppExist_asks conn go (venerableAppName appName) st
                  space w1 Hspace)
        as ([exists_ err] & st' & Hrun & Hcalls).
      unfold venerableAppName in *.
      unfold mbind at 1, M_bind at 1. rewrite Hrun.
      destruct err as [e|].
      { exists []. unfold calls_since. run_prints. rewrite Hcalls.
        apply drop_app_length. }
      destruct exists_.
      * change ((fatalIf None;; _) st')
          with (DeleteApplication conn (appName +:+ "-venerable")
                  (printed (Println "Found old version of app running, deleting.") st')).
        rewrite DeleteApplication_run.
        destruct (after_command_done conn
                    ["delete"; appName +:+ "-venerable"; "-f"]
                    (printed (Println "Found old version of app running, deleting.") st'))
          as (e & st'' & -> & Hc & _).
        exists [CallCliCommand ["delete"; appName +:+ "-venerable"; "-f"]].
        unfold calls_since. cbn [snd]. rewrite Hc. cbn [printed calls].
        rewrite Hcalls, <- app_assoc. apply drop_app_length.
      * exists []. unfold calls_since. run_prints. rewrite Hcalls.
        apply drop_app_length.
Qed.

End Plans.

(** ** The existence check *)

Section Repo.
Context {W : Type} (conn : CliConnection W) (go : GoLibrary).

Implicit Types (st : Proc W) (appName : string).

(** C8.  When the platform answers both calls and the answer decodes, the
    existence check returns [count == 1] with no error if [total_results]
    is a number, and false with an error if [total_results] is missing or
    is not a number; so it returns true exactly when the reported count
    is 1. *)
Theorem DoesAppExist_counts_one appName st space w1 result w2 output :
  GetCurrentSpace conn (world st) = ((space, None), w1) →
  CliCommandWithoutTerminalOutput conn
    ["curl"; "v2/apps?q=name:" +:+ appName +:+ "&q=space_guid:" +:+ Guid space]
    w1 = ((result, None), w2) →
  json_Unmarshal go (strings_Join result "") ∅ = (output, None) →
  ∃ st',
    st' = mkProc w2
            (calls st ++
             [CallGetCurrentSpace;
              CallCliCommandWithoutTerminalOutput
                ["curl"; "v2/apps?q=name:" +:+ appName +:+ "&q=space_guid:"
                         +:+ Guid space]])
            (stdout st)
    ∧ DoesAppExist conn go appName st
      = match output !! "total_results" with
        | Some (JNumber count) =>
          (Done (PrimFloat.eqb count 1%float, None), st')
        | Some other =>
          (Done (false,
                 Some (fmt_Errorf "total_results didn't have a number %v"
                                  other)), st')
        | None =>
          (Done (false,
                 Some (errors_New "Missing total_results from api response")),
           st')
        end
    ∧ (∀ found err,
         (DoesAppExist conn go appName st).1 = Done (found, err) →
         found = true ↔
         ∃ count, output !! "total_results" = Some (JNumber count)
                  ∧ PrimFloat.eqb count 1%float = true).
Proof.
  intros Hspace Hcurl Hjson. eexists. split; [reflexivity|].
  assert (DoesAppExist conn go appName st
          = match output !! "total_results" with
            | Some (JNumber count) =>
              (Done (PrimFloat.eqb count 1%float, None),
               mkProc w2
                 ((calls st ++ [CallGetCurrentSpace]) ++
                  [CallCliCommandWithoutTerminalOutput
                     ["curl"; "v2/apps?q=name:" +:+ appName
                              +:+ "&q=space_guid:" +:+ Guid space]])
                 (stdout st))
            | Some other =>
              (Done (false,
                     Some (fmt_Errorf "total_results didn't have a number %v"
                                      other)),
               mkProc w2
                 ((calls st ++ [CallGetCurrentSpace]) ++
                  [CallCliCommandWithoutTerminalOutput
                     ["curl"; "v2/apps?q=name:" +:+ appName
                              +:+ "&q=space_guid:" +:+ Guid space]])
                 (stdout st))
            | None =>
              (Done (false,
                     Some (errors_New "Missing total_results from api response")),
               mkProc w2
                 ((calls st ++ [CallGetCurrentSpace]) ++
                  [CallCliCommandWithoutTerminalOutput
                     ["curl"; "v2/apps?q=name:" +:+ appName
                              +:+ "&q=space_guid:" +:+ Guid space]])
                 (stdout st))
            end) as Hrun.
  { unfold DoesAppExist, mbind, M_bind, conn_GetCurrentSpace,
      conn_CliCommandWithoutTerminalOutput.
    rewrite Hspace. cbn beta iota zeta. cbn [world calls stdout].
    rewrite Hcurl. cbn beta iota zeta. rewrite Hjson.
    destruct (output !! "total_results") as [[]|]; reflexivity. }
  rewrite Hrun, <- app_assoc. clear Hrun.
  split; [reflexivity|].
  intros found err.
  destruct (output !! "total_results") as [v|]; [destruct v|];
    cbn [fst]; intros [= <- <-]; split;
    try discriminate; try (intros (c & [= ] & _); fail); eauto.
  - intros (c & [= <-] & Hc). done.
Qed.

End Repo.

(** ** The driver *)

Section Driver.
Context {W : Type} (conn : CliConnection W) (go : GoLibrary).

Implicit Types (st : Proc W) (args : list string) (appName : string).

Lemma Execute_nothing message st :
  Execute {| ActionList := []; RewindFailureMessage := message |} st
  = (Done None, st).
Proof. reflexivity. Qed.

(** C4.  On a rollback, after the two existence checks have answered: with
    no live A, or with no A-venerable, the driver prints the error saying
    which is missing (or the error of the check that failed) and exits with
    status 1, and from start to exit the only calls made on the platform
    are the existence queries, so no Action ran; only with both present
    does it build the rollback plan and hand it to the sequencer. *)
Theorem rollback_needs_both
  args appName st live err1 st1 venerable err2 st2 :
  args !! 0%nat = Some "zero-downtime-rollback" →
  args !! 1%nat = Some appName →
  DoesAppExist conn go appName st = (Done (live, err1), st1) →
  DoesAppExist conn go (appName +:+ "-venerable") st1
    = (Done (venerable, err2), st2) →
  Run conn go args st
  = match err1, err2 with
    | Some e, _ => (Exited 1, printed (PrintlnError e) st1)
    | None, Some e => (Exited 1, printed (PrintlnError e) st2)
    | None, None =>
      if negb live then
        (Exited 1, printed (PrintlnError (liveNotFound appName)) st2)
      else if negb venerable then
        (Exited 1, printed (PrintlnError (venerableNotFound appName)) st2)
      else
        finish conn (getActionsForRollback conn appName args)
               rollbackSuccessMessage st2
    end
  ∧ (live && venerable = false →
     (Run conn go args st).1 = Exited 1
     ∧ Forall (λ c, is_existence_query c = true)
              (calls_since st (Run conn go args st).2)).
Proof.
  intros Hcmd Hname Hlive Hven.
  assert (Run conn go args st
          = match err1, err2 with
            | Some e, _ => (Exited 1, printed (PrintlnError e) st1)
            | None, Some e => (Exited 1, printed (PrintlnError e) st2)
            | None, None =>
              if negb live then
                (Exited 1, printed (PrintlnError (liveNotFound appName)) st2)
              else if negb venerable then
                (Exited 1,
                 printed (PrintlnError (venerableNotFound appName)) st2)
              else
                finish conn (getActionsForRollback conn appName args)
                       rollbackSuccessMessage st2
            end) as Hrun.
  { unfold Run, index. rewrite Hname, Hcmd.
    unfold mbind at 1, M_bind at 1. cbn beta iota zeta.
    unfold mret at 1, M_ret at 1. cbn beta iota zeta.
    unfold mbind at 1, M_bind at 1. cbn beta iota zeta.
    unfold mret at 1, M_ret at 1. cbn beta iota zeta.
    destruct (decide ("zero-downtime-rollback" = "zero-downtime-push"))
      as [E|_]; [discriminate E|].
    destruct (decide ("zero-downtime-rollback" = "zero-downtime-rollback"))
      as [_|E]; [|by destruct E].
    unfold mbind at 1, M_bind at 1. rewrite Hlive. cbn beta iota zeta.
    destruct err1 as [e1|]; [reflexivity|].
    unfold mbind at 1, M_bind at 1. rewrite fatalIf_nil.
    unfold venerableAppName.
    unfold mbind at 1, M_bind at 1. rewrite Hven. cbn beta iota zeta.
    destruct err2 as [e2|]; [reflexivity|].
    unfold mbind at 1, M_bind at 1. rewrite fatalIf_nil.
    destruct live, venerable; reflexivity. }
  split; [exact Hrun|].
  intros Hmissing. rewrite Hrun.
  destruct (DoesAppExist_done conn go appName st)
    as (r1 & s1 & l1 & E1 & Hc1 & Hl1 & _).
  rewrite Hlive in E1. injection E1 as <- <-.
  destruct (DoesAppExist_done conn go (appName +:+ "-venerable") st1)
    as (r2 & s2 & l2 & E2 & Hc2 & Hl2 & _).
  rewrite Hven in E2. injection E2 as <- <-.
  assert (Forall (λ c, is_existence_query c = true) (calls_since st st1))
    as Hfirst.
  { unfold calls_since. rewrite Hc1, drop_app_length. by constructor. }
  assert (Forall (λ c, is_existence_query c = true) (calls_since st st2))
    as Hboth.
  { unfold calls_since. rewrite Hc2, Hc1, <- app_assoc, drop_app_length.
    constructor; [done|]. apply Forall_app. split; [done|]. by constructor. }
  destruct err1 as [e1|]; [by split|].
  destruct err2 as [e2|]; [by split|].
  destruct live, venerable; try discriminate Hmissing; by split.
Qed.

(** C10.  With a first argument that is neither command, the driver
    raises no error of its own: the plan it hands to the sequencer is
    empty, running it succeeds without touching the platform, three lines
    are printed, the success message between the blank ones being empty
    too, and the applications are listed. *)
Theorem unknown_command_runs_nothing args command appName st :
  args !! 0%nat = Some command →
  args !! 1%nat = Some appName →
  command ≠ "zero-downtime-push" →
  command ≠ "zero-downtime-rollback" →
  Run conn go args st = finish conn [] "" st
  ∧ Execute {| ActionList := []; RewindFailureMessage := rewindFailureMessage |}
      st = (Done None, st)
  ∧ Run conn go args st
    = (let '((_, err), w) := CliCommand conn ["apps"] (world st) in
       let listed :=
         mkProc w (calls st ++ [CallCliCommand ["apps"]])
                (stdout st ++ [Println ""; Println ""; Println ""]) in
       match err with
       | None => (Done tt, listed)
       | Some e => (Exited 1, printed (PrintlnError e) listed)
       end).
Proof.
  intros Hcmd Hname Hpush Hrollback.
  assert (Run conn go args st = finish conn [] "" st) as Hrun.
  { unfold Run, index. rewrite Hname, Hcmd.
    unfold mbind at 1, M_bind at 1. cbn beta iota zeta.
    unfold mret at 1, M_ret at 1. cbn beta iota zeta.
    unfold mbind at 1, M_bind at 1. cbn beta iota zeta.
    unfold mret at 1, M_ret at 1. cbn beta iota zeta.
    destruct (decide (command = "zero-downtime-push")); [contradiction|].
    destruct (decide (command = "zero-downtime-rollback")); [contradiction|].
    reflexivity. }
  split; [exact Hrun|]. split; [reflexivity|].
  rewrite Hrun. unfold finish.
  unfold mbind at 1, M_bind at 1. rewrite Execute_nothing.
  run_prints. unfold ListApplications, conn_CliCommand. run_prints.
  destruct (CliCommand conn ["apps"] (world st)) as [[out [e|]] w];
    cbn beta iota zeta; cbn [world calls stdout];
    rewrite <- !app_assoc; reflexivity.
Qed.

End Driver.

(** ** The theorems at work on the small platform *)

(** C1 at work: [foo] is live, and so is a stale [foo-venerable]. *)
Lemma replace_existing_plan_witness :
  ParseArgs Sim.go Sim.push_args (Sim.start ["foo"; "foo-venerable"])
    = (Done ("foo", "manifest.yml", "", Sim.delete_options, None),
       Sim.start ["foo"; "foo-venerable"])
  ∧ DoesAppExist Sim.conn Sim.go "foo" (Sim.start ["foo"; "foo-venerable"])
    = (Done (true, None), Sim.queried "foo" (Sim.start ["foo"; "foo-venerable"]))
  ∧ ∃ clean demote push retire,
      getActionsForPush Sim.conn Sim.go Sim.push_args
        (Sim.start ["foo"; "foo-venerable"])
      = (Done [clean; demote; push; retire],
         Sim.queried "foo" (Sim.start ["foo"; "foo-venerable"]))
      ∧ Sim.apps (world (Forward clean (Sim.start ["foo"; "foo-venerable"])).2)
        = ["foo"]
      ∧ Sim.apps (world (Forward demote (Sim.start ["foo"])).2)
        = ["foo-venerable"].
Proof.
  assert (ParseArgs Sim.go Sim.push_args (Sim.start ["foo"; "foo-venerable"])
          = (Done ("foo", "manifest.yml", "", Sim.delete_options, None),
             Sim.start ["foo"; "foo-venerable"])) as Hparse
    by (vm_compute; reflexivity).
  assert (DoesAppExist Sim.conn Sim.go "foo"
            (Sim.start ["foo"; "foo-venerable"])
          = (Done (true, None),
             Sim.queried "foo" (Sim.start ["foo"; "foo-venerable"])))
    as Hexists by (vm_compute; reflexivity).
  split; [exact Hparse|]. split; [exact Hexists|].
  destruct (replace_existing_plan Sim.conn Sim.go _ _ _ _ _ _ _ _
              Hparse Hexists)
    as (clean & demote & push & retire & Hplan & _ & Hclean & _ & Hdemote).
  exists clean, demote, push, retire.
  split; [exact Hplan|]. split.
  - rewrite (Hclean (Sim.start ["foo"; "foo-venerable"])
               (Sim.queried "foo-venerable"
                  (Sim.start ["foo"; "foo-venerable"])));
      vm_compute; reflexivity.
  - rewrite Hdemote. vm_compute; reflexivity.
Defined.

(** C6 at work: only [bar] is in the space. *)
Lemma new_app_plan_witness :
  ParseArgs Sim.go Sim.push_args (Sim.start ["bar"])
    = (Done ("foo", "manifest.yml", "", Sim.delete_options, None),
       Sim.start ["bar"])
  ∧ DoesAppExist Sim.conn Sim.go "foo" (Sim.start ["bar"])
    = (Done (false, None), Sim.queried "foo" (Sim.start ["bar"]))
  ∧ ∃ push,
      getActionsForPush Sim.conn Sim.go Sim.push_args (Sim.start ["bar"])
      = (Done [push], Sim.queried "foo" (Sim.start ["bar"]))
      ∧ ReversePrevious push = None
      ∧ calls (Forward push (Sim.start ["bar"])).2
        = [CallCliCommand ["push"; "foo"; "-f"; "manifest.yml"]].
Proof.
  assert (ParseArgs Sim.go Sim.push_args (Sim.start ["bar"])
          = (Done ("foo", "manifest.yml", "", Sim.delete_options, None),
             Sim.start ["bar"])) as Hparse
    by (vm_compute; reflexivity).
  assert (DoesAppExist Sim.conn Sim.go "foo" (Sim.start ["bar"])
          = (Done (false, None), Sim.queried "foo" (Sim.start ["bar"])))
    as Hexists by (vm_compute; reflexivity).
  split; [exact Hparse|]. split; [exact Hexists|].
  destruct (new_app_plan Sim.conn Sim.go _ _ _ _ _ _ _ _ Hparse Hexists)
    as (push & Hplan & Hnone & Hpush & _).
  exists push. split; [exact Hplan|]. split; [exact Hnone|].
  rewrite Hpush. vm_compute; reflexivity.
Defined.

(** C9 at work: the delete of the half-pushed [foo] fails, [foo] stays,
    and the error returned is that of the rename, which finds the name
    taken. *)
Lemma push_reverse_ignores_delete_error_witness :
  CliCommand Sim.conn ["delete"; "foo"; "-f"]
    (world (Sim.start_failing ["foo-venerable"; "foo"] ["delete"]))
    = (([], Some (Sim.failure "delete")),
       world (Sim.start_failing ["foo-venerable"; "foo"] ["delete"]))
  ∧ ∃ clean demote push retire reverse,
      getActionsForExistingApp Sim.conn Sim.go "foo" "manifest.yml" ""
        Sim.delete_options
      = [clean; demote; push; retire]
      ∧ ReversePrevious push = Some reverse
      ∧ reverse (Sim.start_failing ["foo-venerable"; "foo"] ["delete"])
        = (Done (Some (errors_New "The app name is taken: foo")),
           mkProc (world (Sim.start_failing ["foo-venerable"; "foo"] ["delete"]))
             [CallCliCommand ["delete"; "foo"; "-f"];
              CallCliCommand ["rename"; "foo-venerable"; "foo"]]
             []).
Proof.
  assert (CliCommand Sim.conn ["delete"; "foo"; "-f"]
            (world (Sim.start_failing ["foo-venerable"; "foo"] ["delete"]))
          = (([], Some (Sim.failure "delete")),
             world (Sim.start_failing ["foo-venerable"; "foo"] ["delete"])))
    as Hdelete by (vm_compute; reflexivity).
  split; [exact Hdelete|].
  destruct (push_reverse_ignores_delete_error Sim.conn Sim.go
              "foo" "manifest.yml" "" Sim.delete_options _ _ _ _ Hdelete)
    as (clean & demote & push & retire & reverse & Hplan & Hrev & Hrun & _).
  exists clean, demote, push, retire, reverse.
  split; [exact Hplan|]. split; [exact Hrev|].
  rewrite Hrun. vm_compute; reflexivity.
Defined.

(** C8 at work: one [foo] in the space. *)
Lemma DoesAppExist_counts_one_witness :
  DoesAppExist Sim.conn Sim.go "foo" (Sim.start ["foo"; "bar"])
  = (Done (true, None), Sim.queried "foo" (Sim.start ["foo"; "bar"])).
Proof.
  destruct (DoesAppExist_counts_one Sim.conn Sim.go "foo"
              (Sim.start ["foo"; "bar"]) Sim.space
              (world (Sim.start ["foo"; "bar"]))
              [Sim.total_json "1"]
              (world (Sim.start ["foo"; "bar"]))
              (<["total_results" := JNumber 1%float]> ∅))
    as (st' & -> & Hrun & _);
    [vm_compute; reflexivity ..|].
  rewrite Hrun. vm_compute; reflexivity.
Defined.

(** C4 at work: [foo] is live and there is no [foo-venerable]. *)
Lemma rollback_needs_both_witness :
  Run Sim.conn Sim.go Sim.rollback_args (Sim.start ["foo"; "bar"])
  = (Exited 1,
     printed (PrintlnError (venerableNotFound "foo"))
       (Sim.queried "foo-venerable"
          (Sim.queried "foo" (Sim.start ["foo"; "bar"]))))
  ∧ Forall (λ c, is_existence_query c = true)
      (calls_since (Sim.start ["foo"; "bar"])
         (Run Sim.conn Sim.go Sim.rollback_args (Sim.start ["foo"; "bar"])).2).
Proof.
  destruct (rollback_needs_both Sim.conn Sim.go Sim.rollback_args "foo"
              (Sim.start ["foo"; "bar"]) true None
              (Sim.queried "foo" (Sim.start ["foo"; "bar"]))
              false None
              (Sim.queried "foo-venerable"
                 (Sim.queried "foo" (Sim.start ["foo"; "bar"]))))
    as [Hrun Hqueries]; [vm_compute; reflexivity ..|].
  split; [exact Hrun|]. apply Hqueries. reflexivity.
Defined.

(** C10 at work: the command [bogus]. *)
Lemma unknown_command_runs_nothing_witness :
  Run Sim.conn Sim.go ["bogus"; "foo"] (Sim.start ["foo"])
  = (Done tt,
     mkProc (world (Sim.start ["foo"])) [CallCliCommand ["apps"]]
       [Println ""; Println ""; Println ""]).
Proof.
  destruct (unknown_command_runs_nothing Sim.conn Sim.go
              ["bogus"; "foo"] "bogus" "foo" (Sim.start ["foo"]))
    as (_ & _ & Hrun); [reflexivity | reflexivity | discriminate ..|].
  rewrite Hrun. vm_compute; reflexivity.
Defined.

(** C7 as the spec states it does not hold: in the replace-existing plan
    for [foo], running the forward operation of the first Action asks the
    platform whether [foo-venerable] exists. *)
Lemma clean_forward_queries_existence :
  ¬ Forall action_query_free
      (getActionsForExistingApp Sim.conn Sim.go "foo" "manifest.yml" ""
         Sim.delete_options).
Proof.
  intros Hplan. apply Forall_cons in Hplan as [[Hforward _] _].
  specialize (Hforward (Sim.start ["foo"])).
  vm_compute in Hforward.
  apply Forall_cons in Hforward as [Hquery _]. discriminate Hquery.
Qed.

(** The calls behind it: the first Action of the plan, run in a space
    holding [foo] and a stale [foo-venerable]. *)
Example clean_forward_log :
  ∃ clean later,
    getActionsForExistingApp Sim.conn Sim.go "foo" "manifest.yml" ""
      Sim.delete_options = clean :: later
    ∧ Forward clean (Sim.start ["foo"; "foo-venerable"])
      = (Done None,
         mkProc {| Sim.apps := ["foo"]; Sim.failing := [] |}
           [CallGetCurrentSpace;
            CallCliCommandWithoutTerminalOutput
              ["curl"; "v2/apps?q=name:foo-venerable&q=space_guid:guid-1"];
            CallCliCommand ["delete"; "foo-venerable"; "-f"]]
           [Println "Found old version of app running, deleting."]).
Proof. do 2 eexists. split; [reflexivity|]. vm_compute. reflexivity. Qed.

(** A whole push over a live [foo]. *)
Example push_over_live_app :
  Run Sim.conn Sim.go Sim.push_args (Sim.start ["foo"])
  = (Done tt,
     mkProc {| Sim.apps := ["foo"]; Sim.failing := [] |}
       [CallGetCurrentSpace;
        CallCliCommandWithoutTerminalOutput
          ["curl"; "v2/apps?q=name:foo&q=space_guid:guid-1"];
        CallGetCurrentSpace;
        CallCliCommandWithoutTerminalOutput
          ["curl"; "v2/apps?q=name:foo-venerable&q=space_guid:guid-1"];
        CallCliCommand ["rename"; "foo"; "foo-venerable"];
        CallCliCommand ["push"; "foo"; "-f"; "manifest.yml"];
        CallCliCommand ["delete"; "foo-venerable"; "-f"];
        CallCliCommand ["apps"]]
       [Println "Deleting old version of app. Use the --keep-existing-app flag to preserve it.";
        Println "";
        Println pushSuccessMessage;
        Println ""]).
Proof. vm_compute. reflexivity. Qed.

(** A whole rollback with both [foo] and [foo-venerable] in the space. *)
Example rollback_with_both :
  Run Sim.conn Sim.go Sim.rollback_args (Sim.start ["foo"; "foo-venerable"])
  = (Done tt,
     mkProc {| Sim.apps := ["foo"]; Sim.failing := [] |}
       [CallGetCurrentSpace;
        CallCliCommandWithoutTerminalOutput
          ["curl"; "v2/apps?q=name:foo&q=space_guid:guid-1"];
        CallGetCurrentSpace;
        CallCliCommandWithoutTerminalOutput
          ["curl"; "v2/apps?q=name:foo-venerable&q=space_guid:guid-1"];
        CallCliCommand ["rename"; "foo"; "foo-rollback"];
        CallCliCommand ["rename"; "foo-venerable"; "foo"];
        CallCliCommand ["start"; "foo"];
        CallCliCommand ["delete"; "foo-rollback"; "-f"];
        CallCliCommand ["apps"]]
       [Println ""; Println rollbackSuccessMessage; Println ""]).
Proof. vm_compute. reflexivity. Qed.

(** ** Further properties of the plugin *)

(** *** The naming scheme *)

Lemma append_length (a s : string) :
  String.length (a +:+ s) = (String.length a + String.length s)%nat.
Proof. induction a as [|c a IH]; simpl; [reflexivity|]. by rewrite IH. Qed.

Lemma append_inj_r (s a b : string) : a +:+ s = b +:+ s → a = b.
Proof.
  revert b. induction a as [|c a IH]; intros [|c' b] E; simpl in E.
  - reflexivity.
  - apply (f_equal String.length) in E.
    rewrite !append_length in E. simpl in E. lia.
  - apply (f_equal String.length) in E.
    rewrite !append_length in E. simpl in E. lia.
  - injection E as -> E. f_equal. by apply IH.
Qed.

(** X1.  For one application the live, venerable and rollback names are
    three different names, and two applications never share a venerable
    or a rollback name. *)
Theorem app_names_apart (appName other : string) :
  appName ≠ venerableAppName appName
  ∧ appName ≠ rollbackAppName appName
  ∧ venerableAppName appName ≠ rollbackAppName appName
  ∧ (venerableAppName appName = venerableAppName other → appName = other)
  ∧ (rollbackAppName appName = rollbackAppName other → appName = other).
Proof.
  split; [apply venerable_differs|].
  split; [apply rollback_differs|].
  split; [|split].
  - unfold venerableAppName, rollbackAppName.
    intros E%String.app_inj. discriminate E.
  - apply append_inj_r.
  - apply append_inj_r.
Qed.

(** *** Argument parsing *)

Section Arguments.
Context {W : Type} (go : GoLibrary).

Implicit Types (st : Proc W) (args : list string).

(** With an application name in place, [ParseArgs] returns to its caller
    and leaves the process as it was. *)
Lemma ParseArgs_run args appName st :
  args !! 1%nat = Some appName →
  ParseArgs go args st
  = (Done
       (match flags_Parse go (drop 2 args) with
        | (_, Some e) => ("", "", "", {| KeepExisting := false |}, Some e)
        | (flags, None) =>
          if decide (flag_f flags = "") then
            ("", "", "", {| KeepExisting := false |}, Some ErrNoManifest)
          else
            (appName, flag_f flags, flag_p flags,
             {| KeepExisting := flag_keep_existing_app flags |}, None)
        end), st).
Proof.
  intros Hname. unfold ParseArgs, slice_from, index, mbind, M_bind.
  pose proof (lookup_lt_Some _ _ _ Hname) as Hlen.
  destruct (decide (2 ≤ length args)%nat); [|lia].
  cbn beta iota zeta. unfold mret at 1, M_ret at 1.
  destruct (flags_Parse go (drop 2 args)) as [flags [e|]]; [reflexivity|].
  rewrite Hname. cbn beta iota zeta. unfold mret at 1, M_ret at 1.
  by destruct (decide (flag_f flags = "")).
Qed.

(** X2.  [ParseArgs] panics exactly on an argument vector of fewer than
    two entries, whatever the flags are. *)
Theorem ParseArgs_panics_when_short args st :
  (ParseArgs go args st).1 = Panicked ↔ (length args < 2)%nat.
Proof.
  split.
  - intros Hpanic.
    destruct (decide (length args < 2)%nat) as [|Hlen]; [done|].
    destruct (lookup_lt_is_Some_2 args 1%nat) as [appName Hname]; [lia|].
    rewrite (ParseArgs_run _ _ _ Hname) in Hpanic. discriminate Hpanic.
  - intros Hlen. unfold ParseArgs, slice_from, mbind, M_bind.
    destruct (decide (2 ≤ length args)%nat); [lia|reflexivity].
Qed.

(** X3.  What [ParseArgs] returns: with a nil error, the application name
    is the second argument, the manifest path is not empty and the three
    values are those of the flags; with an error, the names and paths are
    empty and [KeepExisting] is false.  Either way the process is left as
    it was. *)
Theorem ParseArgs_result
  args st appName manifestPath appPath options err st' :
  ParseArgs go args st
    = (Done (appName, manifestPath, appPath, options, err), st') →
  st' = st
  ∧ match err with
    | None =>
      args !! 1%nat = Some appName
      ∧ manifestPath ≠ ""
      ∧ ∃ flags,
          flags_Parse go (drop 2 args) = (flags, None)
          ∧ manifestPath = flag_f flags
          ∧ appPath = flag_p flags
          ∧ KeepExisting options = flag_keep_existing_app flags
    | Some e =>
      appName = "" ∧ manifestPath = "" ∧ appPath = ""
      ∧ KeepExisting options = false
      ∧ (e = ErrNoManifest ∨ ∃ flags, flags_Parse go (drop 2 args) = (flags, Some e))
    end.
Proof.
  intros Hrun.
  destruct (decide (length args < 2)%nat) as [Hlen|Hlen].
  { apply (ParseArgs_panics_when_short args st) in Hlen.
    rewrite Hrun in Hlen. discriminate Hlen. }
  destruct (lookup_lt_is_Some_2 args 1%nat) as [name Hname]; [lia|].
  rewrite (ParseArgs_run _ _ _ Hname) in Hrun.
  destruct (flags_Parse go (drop 2 args)) as [flags [e|]] eqn:Hflags.
  { injection Hrun as <- <- <- <- <- <-. repeat split; eauto. }
  destruct (decide (flag_f flags = "")) as [Hempty|Hmanifest].
  { injection Hrun as <- <- <- <- <- <-. repeat split; eauto. }
  injection Hrun as <- <- <- <- <- <-.
  repeat split; eauto.
Qed.

End Arguments.

(** *** The existence check, when something fails *)

Section Checks.
Context {W : Type} (conn : CliConnection W) (go : GoLibrary).

Implicit Types (st : Proc W) (appName : string).

(** X4.  [DoesAppExist] always returns to its caller: it neither exits nor
    panics.  It prints nothing, asks for the current space first and makes
    at most one more call, never a [CliCommand]; and an answer that
    carries an error is never true. *)
Theorem DoesAppExist_returns appName st :
  ∃ found err st' later,
    DoesAppExist conn go appName st = (Done (found, err), st')
    ∧ calls st' = (calls st ++ CallGetCurrentSpace :: later)%list
    ∧ (length later ≤ 1)%nat
    ∧ Forall (λ c, is_existence_query c = true) later
    ∧ stdout st' = stdout st
    ∧ (is_Some err → found = false).
Proof.
  unfold DoesAppExist, mbind, M_bind, conn_GetCurrentSpace,
    conn_CliCommandWithoutTerminalOutput.
  destruct (GetCurrentSpace conn (world st)) as [[sp [e|]] w1];
    cbn beta iota zeta; cbn [world calls stdout].
  { eexists _, _, _, []. split; [reflexivity|]. cbn.
    repeat split; auto. }
  destruct (CliCommandWithoutTerminalOutput conn _ w1)
    as [[result [e|]] w2]; cbn beta iota zeta.
  { eexists _, _, _, [_]. split; [reflexivity|]. cbn [calls stdout].
    rewrite <- app_assoc. repeat split; auto. }
  destruct (json_Unmarshal go _ ∅) as [output [e|]].
  { eexists _, _, _, [_]. split; [reflexivity|]. cbn [calls stdout].
    rewrite <- app_assoc. repeat split; auto. }
  destruct (output !! "total_results") as [v|].
  - destruct (as_float64 v) as [count []]; cbn [negb].
    + eexists _, _, _, [_]. split; [reflexivity|]. cbn [calls stdout].
      rewrite <- app_assoc. repeat split; auto.
      intros [e He]. discriminate He.
    + eexists _, _, _, [_]. split; [reflexivity|]. cbn [calls stdout].
      rewrite <- app_assoc. repeat split; auto.
  - eexists _, _, _, [_]. split; [reflexivity|]. cbn [calls stdout].
    rewrite <- app_assoc. repeat split; auto.
Qed.

(** X5.  When the current space cannot be had, [DoesAppExist] returns
    false with that error and does not go on to [curl]. *)
Theorem DoesAppExist_without_space appName st space e w1 :
  GetCurrentSpace conn (world st) = ((space, Some e), w1) →
  DoesAppExist conn go appName st
  = (Done (false, Some e),
     mkProc w1 (calls st ++ [CallGetCurrentSpace]) (stdout st)).
Proof.
  intros Hspace. unfold DoesAppExist, mbind, M_bind, conn_GetCurrentSpace.
  by rewrite Hspace.
Qed.

(** X6.  When [curl] fails, or its output does not decode, [DoesAppExist]
    returns false with the error of the call that failed; a failed [curl]
    is not decoded at all. *)
Theorem DoesAppExist_bad_answer appName st space w1 result cerr w2 :
  GetCurrentSpace conn (world st) = ((space, None), w1) →
  CliCommandWithoutTerminalOutput conn
    ["curl"; "v2/apps?q=name:" +:+ appName +:+ "&q=space_guid:" +:+ Guid space]
    w1 = ((result, cerr), w2) →
  (is_Some cerr ∨ is_Some (json_Unmarshal go (strings_Join result "") ∅).2) →
  DoesAppExist conn go appName st
  = (Done (false,
           match cerr with
           | Some e => Some e
           | None => (json_Unmarshal go (strings_Join result "") ∅).2
           end),
     mkProc w2
       (calls st ++
        [CallGetCurrentSpace;
         CallCliCommandWithoutTerminalOutput
           ["curl"; "v2/apps?q=name:" +:+ appName +:+ "&q=space_guid:"
                    +:+ Guid space]])
       (stdout st)).
Proof.
  intros Hspace Hcurl Hbad.
  unfold DoesAppExist, mbind, M_bind, conn_GetCurrentSpace,
    conn_CliCommandWithoutTerminalOutput.
  rewrite Hspace. cbn beta iota zeta. cbn [world calls stdout].
  rewrite Hcurl. cbn beta iota zeta. rewrite <- app_assoc.
  destruct cerr as [e|]; [reflexivity|].
  destruct Hbad as [[e He]|[e He]]; [discriminate He|].
  destruct (json_Unmarshal go (strings_Join result "") ∅) as [output err].
  simpl in He. subst err. reflexivity.
Qed.

End Checks.

(** *** Planning a push *)

Section Planning.
Context {W : Type} (conn : CliConnection W) (go : GoLibrary).

Implicit Types (st : Proc W) (args : list string).
Implicit Types (appName manifestPath appPath : string).

(** X7.  A plan comes out of [getActionsForPush] only for a command line
    that parsed with a manifest, and it is the replace-existing plan or
    the new-app plan for the second argument and the values of the flags;
    by then the planner has printed nothing and has made existence
    queries only. *)
Theorem getActionsForPush_plans args st plan st' :
  getActionsForPush conn go args st = (Done plan, st') →
  ∃ appName flags,
    args !! 1%nat = Some appName
    ∧ flags_Parse go (drop 2 args) = (flags, None)
    ∧ flag_f flags ≠ ""
    ∧ (plan = getActionsForExistingApp conn go appName (flag_f flags)
                (flag_p flags)
                {| KeepExisting := flag_keep_existing_app flags |}
       ∨ plan = getActionsForNewApp conn appName (flag_f flags) (flag_p flags))
    ∧ stdout st' = stdout st
    ∧ Forall (λ c, is_existence_query c = true) (calls_since st st').
Proof.
  intros Hrun.
  destruct (decide (length args < 2)%nat) as [Hlen|Hlen].
  { apply (ParseArgs_panics_when_short (W:=W) go args st) in Hlen.
    unfold getActionsForPush, mbind at 1, M_bind at 1 in Hrun.
    destruct (ParseArgs go args st) as [[r|c|] s]; simpl in Hlen;
      discriminate. }
  destruct (lookup_lt_is_Some_2 args 1%nat) as [appName Hname]; [lia|].
  unfold getActionsForPush, mbind at 1, M_bind at 1 in Hrun.
  rewrite (ParseArgs_run go _ _ _ Hname) in Hrun.
  destruct (flags_Parse go (drop 2 args)) as [flags [e|]] eqn:Hflags;
    [discriminate Hrun|].
  destruct (decide (flag_f flags = "")) as [|Hmanifest];
    [discriminate Hrun|].
  cbn beta iota zeta in Hrun.
  unfold mbind at 1, M_bind at 1 in Hrun. rewrite fatalIf_nil in Hrun.
  destruct (DoesAppExist_done conn go appName st)
    as ([found err] & s & l & Hcheck & Hcalls & Hl & Hout).
  unfold mbind at 1, M_bind at 1 in Hrun. rewrite Hcheck in Hrun.
  cbn beta iota zeta in Hrun.
  destruct err as [e|]; [discriminate Hrun|].
  unfold mbind at 1, M_bind at 1 in Hrun. rewrite fatalIf_nil in Hrun.
  exists appName, flags.
  assert (Forall (λ c, is_existence_query c = true) (calls_since st s))
    as Hqueries.
  { unfold calls_since. rewrite Hcalls, drop_app_length. by constructor. }
  destruct found; injection Hrun as <- <-; repeat split; auto.
Qed.

(** X8.  Planning a push never issues a command: however it ends, the
    calls [getActionsForPush] has made are existence queries. *)
Theorem getActionsForPush_only_queries args st :
  Forall (λ c, is_existence_query c = true)
         (calls_since st (getActionsForPush conn go args st).2).
Proof.
  destruct (ParseArgs_pure (W:=W) go args st) as [o Hparse].
  unfold getActionsForPush, mbind at 1, M_bind at 1. rewrite Hparse.
  destruct o as [[[[[appName manifestPath] appPath] options] err]|c|];
    cbn beta iota zeta; cbn [snd];
    try (rewrite calls_since_refl; constructor).
  destruct err as [e|].
  { run_prints. unfold calls_since. cbn [calls]. rewrite drop_all.
    constructor. }
  unfold mbind at 1, M_bind at 1. rewrite fatalIf_nil.
  destruct (DoesAppExist_done conn go appName st)
    as ([found err] & s & l & Hcheck & Hcalls & Hl & _).
  unfold mbind at 1, M_bind at 1. rewrite Hcheck. cbn beta iota zeta.
  assert (Forall (λ c, is_existence_query c = true) (calls_since st s))
    as Hqueries.
  { unfold calls_since. rewrite Hcalls, drop_app_length. by constructor. }
  destruct err as [e|]; [exact Hqueries|].
  unfold mbind at 1, M_bind at 1. rewrite fatalIf_nil.
  destruct found; exact Hqueries.
Qed.

(** X9.  When the existence check of the application fails while a push
    is planned, the process prints the error of the check and exits with
    status 1; no plan is returned. *)
Theorem getActionsForPush_check_fails
  args st appName manifestPath appPath options st1 found e st2 :
  ParseArgs go args st
    = (Done (appName, manifestPath, appPath, options, None), st1) →
  DoesAppExist conn go appName st1 = (Done (found, Some e), st2) →
  getActionsForPush conn go args st
  = (Exited 1, printed (PrintlnError e) st2).
Proof.
  intros Hparse Hcheck.
  unfold getActionsForPush, mbind at 1, M_bind at 1. rewrite Hparse.
  cbn beta iota zeta.
  unfold mbind at 1, M_bind at 1. rewrite fatalIf_nil.
  unfold mbind at 1, M_bind at 1. rewrite Hcheck. reflexivity.
Qed.

(** X10.  In the replace-existing plan a failed existence check of
    A-venerable is not returned as the error of the first Action: the
    forward operation prints the error and exits with status 1, so the
    process ends inside the step and A-venerable is not deleted. *)
Theorem clean_exits_when_check_fails
  appName manifestPath appPath options st found e st' :
  DoesAppExist conn go (appName +:+ "-venerable") st
    = (Done (found, Some e), st') →
  ∃ clean later,
    getActionsForExistingApp conn go appName manifestPath appPath options
      = clean :: later
    ∧ Forward clean st = (Exited 1, printed (PrintlnError e) st').
Proof.
  intros Hcheck. unfold getActionsForExistingApp. do 2 eexists.
  split; [reflexivity|]. cbn [Forward]. unfold venerableAppName.
  unfold mbind at 1, M_bind at 1. rewrite Hcheck. reflexivity.
Qed.

End Planning.

(** *** The driver, at its edges *)

Section Edges.
Context {W : Type} (conn : CliConnection W) (go : GoLibrary).

Implicit Types (st : Proc W) (args : list string) (appName : string).

(** X11.  With fewer than two arguments [Run] panics on [args[1]], before
    it has looked at the command, printed anything or called the
    platform. *)
Theorem Run_panics_when_short args st :
  (length args < 2)%nat → Run conn go args st = (Panicked, st).
Proof.
  intros Hlen. unfold Run, index.
  rewrite (lookup_ge_None_2 args 1%nat) by lia. reflexivity.
Qed.

(** X12.  A push whose flags do not parse, or that names no manifest, is
    turned down before the platform is called at all: [Run] prints the
    error of the flags, or [ErrNoManifest], and exits with status 1. *)
Theorem push_rejected_before_any_call args appName flags err st :
  args !! 0%nat = Some "zero-downtime-push" →
  args !! 1%nat = Some appName →
  flags_Parse go (drop 2 args) = (flags, err) →
  is_Some err ∨ flag_f flags = "" →
  Run conn go args st
  = (Exited 1, printed (PrintlnError (default ErrNoManifest err)) st).
Proof.
  intros Hcmd Hname Hflags Hbad.
  unfold Run, index. rewrite Hname, Hcmd.
  unfold mbind at 1, M_bind at 1. cbn beta iota zeta.
  unfold mret at 1, M_ret at 1. cbn beta iota zeta.
  unfold mbind at 1, M_bind at 1. cbn beta iota zeta.
  unfold mret at 1, M_ret at 1. cbn beta iota zeta.
  destruct (decide ("zero-downtime-push" = "zero-downtime-push"))
    as [_|E]; [|by destruct E].
  unfold mbind at 1, M_bind at 1.
  unfold getActionsForPush, mbind at 1, M_bind at 1.
  rewrite (ParseArgs_run go _ _ _ Hname), Hflags.
  destruct err as [e|]; [reflexivity|].
  destruct Hbad as [[e He]|Hempty]; [discriminate He|].
  by destruct (decide (flag_f flags = "")).
Qed.

(** X13.  The end of [Run], once the sequencer has returned: an error is
    printed and the process exits with status 1, with no success message
    and no listing; on nil the success message is printed between two
    blank lines and the applications are listed, and a failed listing
    also ends the process with status 1. *)
Theorem finish_reports actionList successMessage st err st1 :
  Execute {| ActionList := actionList;
             RewindFailureMessage := rewindFailureMessage |} st
    = (Done err, st1) →
  finish conn actionList successMessage st
  = match err with
    | Some e => (Exited 1, printed (PrintlnError e) st1)
    | None =>
      let '((_, lerr), w) := CliCommand conn ["apps"] (world st1) in
      let listed :=
        mkProc w (calls st1 ++ [CallCliCommand ["apps"]])
          (stdout st1 ++ [Println ""; Println successMessage; Println ""]) in
      match lerr with
      | None => (Done tt, listed)
      | Some e => (Exited 1, printed (PrintlnError e) listed)
      end
    end.
Proof.
  intros Hexec. unfold finish.
  unfold mbind at 1, M_bind at 1. rewrite Hexec.
  destruct err as [e|]; [reflexivity|].
  run_prints. unfold ListApplications, conn_CliCommand. run_prints.
  destruct (CliCommand conn ["apps"] (world st1)) as [[out [e|]] w];
    cbn beta iota zeta; cbn [world calls stdout];
    rewrite <- !app_assoc; reflexivity.
Qed.

End Edges.

(** *** The further properties at work on the small platform *)

(** X3 at work. *)
Lemma ParseArgs_result_witness :
  ParseArgs Sim.go
    ["zero-downtime-push"; "foo"; "-f"; "manifest.yml"; "-p"; "build";
     "--keep-existing-app"] (Sim.start ["foo"])
  = (Done ("foo", "manifest.yml", "build", {| KeepExisting := true |}, None),
     Sim.start ["foo"])
  ∧ ∃ flags,
      flags_Parse Sim.go ["-f"; "manifest.yml"; "-p"; "build";
                          "--keep-existing-app"] = (flags, None)
      ∧ "manifest.yml" = flag_f flags
      ∧ "build" = flag_p flags
      ∧ true = flag_keep_existing_app flags.
Proof.
  assert (ParseArgs Sim.go
            ["zero-downtime-push"; "foo"; "-f"; "manifest.yml"; "-p"; "build";
             "--keep-existing-app"] (Sim.start ["foo"])
          = (Done ("foo", "manifest.yml", "build",
                   {| KeepExisting := true |}, None), Sim.start ["foo"]))
    as Hparse by (vm_compute; reflexivity).
  split; [exact Hparse|].
  destruct (ParseArgs_result Sim.go _ _ _ _ _ _ _ _ Hparse)
    as (_ & _ & _ & flags & Hflags).
  exists flags. exact Hflags.
Defined.

(** X5 at work: no space is targeted. *)
Lemma DoesAppExist_without_space_witness :
  DoesAppExist Untargeted.conn Sim.go "foo" (Sim.start ["foo"])
  = (Done (false, Some Untargeted.no_space),
     mkProc (world (Sim.start ["foo"])) [CallGetCurrentSpace] []).
Proof.
  apply (DoesAppExist_without_space Untargeted.conn Sim.go "foo"
           (Sim.start ["foo"]) {| Guid := ""; Name := "" |}).
  reflexivity.
Defined.

(** X6 at work: [curl] fails. *)
Lemma DoesAppExist_bad_answer_witness :
  DoesAppExist Sim.conn Sim.go "foo" (Sim.start_failing ["foo"] ["curl"])
  = (Done (false, Some (Sim.failure "curl")),
     Sim.queried "foo" (Sim.start_failing ["foo"] ["curl"])).
Proof.
  rewrite (DoesAppExist_bad_answer Sim.conn Sim.go "foo"
             (Sim.start_failing ["foo"] ["curl"]) Sim.space
             (world (Sim.start_failing ["foo"] ["curl"]))
             [] (Some (Sim.failure "curl"))
             (world (Sim.start_failing ["foo"] ["curl"])));
    [reflexivity | reflexivity | vm_compute; reflexivity | left; eauto].
Defined.

(** X7 at work: a push over a live [foo]. *)
Lemma getActionsForPush_plans_witness :
  ∃ flags,
    flags_Parse Sim.go (drop 2 Sim.push_args) = (flags, None)
    ∧ flag_f flags ≠ ""
    ∧ (getActionsForPush Sim.conn Sim.go Sim.push_args (Sim.start ["foo"])).1
      = Done (getActionsForExistingApp Sim.conn Sim.go "foo" (flag_f flags)
                (flag_p flags)
                {| KeepExisting := flag_keep_existing_app flags |}).
Proof.
  destruct (getActionsForPush_plans Sim.conn Sim.go Sim.push_args
              (Sim.start ["foo"])
              (getActionsForExistingApp Sim.conn Sim.go "foo" "manifest.yml"
                 "" Sim.delete_options)
              (Sim.queried "foo" (Sim.start ["foo"])))
    as (appName & flags & Hname & Hflags & Hmanifest & _);
    [vm_compute; reflexivity|].
  exists flags. split; [exact Hflags|]. split; [exact Hmanifest|].
  vm_compute in Hflags. injection Hflags as <-. vm_compute. reflexivity.
Defined.

(** X9 at work: [curl] fails while the push is planned. *)
Lemma getActionsForPush_check_fails_witness :
  getActionsForPush Sim.conn Sim.go Sim.push_args
    (Sim.start_failing ["foo"] ["curl"])
  = (Exited 1,
     printed (PrintlnError (Sim.failure "curl"))
       (Sim.queried "foo" (Sim.start_failing ["foo"] ["curl"]))).
Proof.
  apply (getActionsForPush_check_fails Sim.conn Sim.go Sim.push_args
           (Sim.start_failing ["foo"] ["curl"])
           "foo" "manifest.yml" "" Sim.delete_options
           (Sim.start_failing ["foo"] ["curl"]) false);
    vm_compute; reflexivity.
Defined.

(** X10 at work: [curl] fails when the first step runs. *)
Lemma clean_exits_when_check_fails_witness :
  ∃ clean later,
    getActionsForExistingApp Sim.conn Sim.go "foo" "manifest.yml" ""
      Sim.delete_options = clean :: later
    ∧ Forward clean (Sim.start_failing ["foo"; "foo-venerable"] ["curl"])
      = (Exited 1,
         printed (PrintlnError (Sim.failure "curl"))
           (Sim.queried "foo-venerable"
              (Sim.start_failing ["foo"; "foo-venerable"] ["curl"]))).
Proof.
  apply (clean_exits_when_check_fails Sim.conn Sim.go "foo" "manifest.yml" ""
           Sim.delete_options
           (Sim.start_failing ["foo"; "foo-venerable"] ["curl"]) false).
  vm_compute; reflexivity.
Defined.

(** X11 at work: the command alone. *)
Lemma Run_panics_when_short_witness :
  Run Sim.conn Sim.go ["zero-downtime-push"] (Sim.start ["foo"])
  = (Panicked, Sim.start ["foo"]).
Proof.
  apply (Run_panics_when_short Sim.conn Sim.go ["zero-downtime-push"]).
  simpl. lia.
Defined.

(** X12 at work: a push with no [-f]. *)
Lemma push_rejected_before_any_call_witness :
  Run Sim.conn Sim.go ["zero-downtime-push"; "foo"; "-p"; "build"]
    (Sim.start ["foo"])
  = (Exited 1, mkProc (world (Sim.start ["foo"])) [] [PrintlnError ErrNoManifest]).
Proof.
  apply (push_rejected_before_any_call Sim.conn Sim.go
           ["zero-downtime-push"; "foo"; "-p"; "build"] "foo"
           {| flag_f := ""; flag_p := "build";
              flag_keep_existing_app := false |} None);
    [reflexivity | reflexivity | vm_compute; reflexivity | by right].
Defined.

(** X13 at work: the push of a new [foo] fails. *)
Lemma finish_reports_witness :
  finish Sim.conn (getActionsForNewApp Sim.conn "foo" "manifest.yml" "")
    pushSuccessMessage (Sim.start_failing [] ["push"])
  = (Exited 1,
     mkProc (world (Sim.start_failing [] ["push"]))
       [CallCliCommand ["push"; "foo"; "-f"; "manifest.yml"]]
       [PrintlnError (Sim.failure "push")]).
Proof.
  rewrite (finish_reports Sim.conn
             (getActionsForNewApp Sim.conn "foo" "manifest.yml" "")
             pushSuccessMessage (Sim.start_failing [] ["push"])
             (Some (Sim.failure "push"))
             (mkProc (world (Sim.start_failing [] ["push"]))
                [CallCliCommand ["push"; "foo"; "-f"; "manifest.yml"]] []));
    vm_compute; reflexivity.
Defined.

(** *** Rollback and the rest of the command line *)

(** X14.  A rollback reads nothing of the command line past the
    application name: no flag is parsed, and whatever follows the name,
    well formed or not, the run is that of the two arguments alone. *)
Theorem rollback_ignores_flags {W} (conn : CliConnection W) (go : GoLibrary)
  (appName : string) (rest : list string) (st : Proc W) :
  Run conn go ("zero-downtime-rollback" :: appName :: rest) st
  = Run conn go ["zero-downtime-rollback"; appName] st.
Proof. reflexivity. Qed.
